(** * Trading-bot swarm: the risk manager and the trading engine

    A shallow embedding of [src/core/risk_manager.py] and of the candle and
    ticker paths of [src/core/trading_engine.py], followed by the properties
    of the decision-and-risk pipeline.

    Conventions of the embedding.
    - Python [float] values are kept abstract behind the interface [PyFloat]:
      the risk manager is written once over any carrier with the float
      operations the source uses.  Structural properties are proved for every
      carrier (hence also for IEEE binary64); arithmetic properties are proved
      for the exact instance on rationals, [Q], in which every operation is
      the real-number one and [round(x, n)] is round-half-even to [n]
      decimals.  A second instance on primitive doubles runs the model with
      the interpreter's rounding; the concrete runs are evaluated on both.
    - A Python [dict] keyed by symbol is an insertion-ordered association list
      with unique keys ([PyDict]): the source iterates over [keys()] and
      [values()], so the order is part of the behaviour.
    - Methods that mutate [self] return the new state next to their result.
    - A raised exception is the [Raised] outcome.
    - The [datetime] fields ([opened_at], [updated_at], [timestamp]) hold wall
      clock readings that no decision reads; they are left out. *)

From Stdlib Require Import ZArith QArith Qround Qabs Qminmax.
From Stdlib Require Import String List Bool Lia Lqa.
From Stdlib Require Import Uint63.
From Corelib Require Import PrimFloat FloatOps SpecFloat.
Import ListNotations.

Set Implicit Arguments.

(** ** Python floats *)

(** The float operations used by the source.  [lit m k] is the numeric
    literal with digits [m] and [k] decimals, so [lit 95 2] is [0.95],
    [lit 0 1] is [0.0] and [lit 100 0] is the integer [100] where it meets a
    float; [of_int] is the conversion of a Python [int] variable; [fround n x]
    is [round(x, n)]. *)
Class PyFloat (R : Type) : Type := {
  lit    : Z -> nat -> R;
  of_int : Z -> R;
  fadd   : R -> R -> R;
  fsub   : R -> R -> R;
  fmul   : R -> R -> R;
  fdiv   : R -> R -> R;
  fabs   : R -> R;
  feqb   : R -> R -> bool;
  fltb   : R -> R -> bool;
  fleb   : R -> R -> bool;
  fround : nat -> R -> R
}.

Declare Scope pyfloat_scope.
Delimit Scope pyfloat_scope with F.
Infix "+" := fadd : pyfloat_scope.
Infix "-" := fsub : pyfloat_scope.
Infix "*" := fmul : pyfloat_scope.
Infix "/" := fdiv : pyfloat_scope.
Infix "==?" := feqb (at level 70, no associativity) : pyfloat_scope.
Infix "<?" := fltb : pyfloat_scope.
Infix "<=?" := fleb : pyfloat_scope.
Notation "x >? y" := (fltb y x) : pyfloat_scope.
Notation "x >=? y" := (fleb y x) : pyfloat_scope.

Section Builtins.
Context {R : Type} `{PyFloat R}.
Local Open Scope pyfloat_scope.

(** Python's [min(a, b)] and [max(a, b)] keep the first argument unless the
    second is strictly better. *)
Definition py_min (a b : R) : R := if b <? a then b else a.
Definition py_max (a b : R) : R := if b >? a then b else a.

(** [sum(xs)] starts from the integer [0]. *)
Definition py_sum (xs : list R) : R := fold_left fadd xs (lit 0 0).
End Builtins.

(** The result of a call that may raise. *)
Inductive outcome (A : Type) : Type :=
| Returned (a : A)
| Raised (exn : string).
Arguments Returned {A} a.
Arguments Raised {A} exn.

(** ** Insertion-ordered dictionaries keyed by strings *)

Module PyDict.
Definition t (V : Type) : Type := list (string * V).

Definition empty {V} : t V := [].

Fixpoint get {V} (d : t V) (k : string) : option V :=
  match d with
  | [] => None
  | (k', v) :: d' => if String.eqb k k' then Some v else get d' k
  end.

Definition contains {V} (d : t V) (k : string) : bool :=
  match get d k with Some _ => true | None => false end.

(** [d[k] = v]: an existing key keeps its place, a new key goes last. *)
Fixpoint set {V} (d : t V) (k : string) (v : V) : t V :=
  match d with
  | [] => [(k, v)]
  | (k', v') :: d' =>
      if String.eqb k k' then (k', v) :: d' else (k', v') :: set d' k v
  end.

(** [del d[k]] (the callers only delete a key that is present). *)
Fixpoint del {V} (d : t V) (k : string) : t V :=
  match d with
  | [] => []
  | (k', v') :: d' => if String.eqb k k' then d' else (k', v') :: del d' k
  end.

Definition keys {V} (d : t V) : list string := map fst d.
Definition values {V} (d : t V) : list V := map snd d.
Definition len {V} (d : t V) : Z := Z.of_nat (length d).
End PyDict.

(** ** strategy_interface.py: signals *)

Inductive SignalType : Type := BUY | SELL | HOLD | CLOSE_LONG | CLOSE_SHORT.

Definition SignalType_eqb (a b : SignalType) : bool :=
  match a, b with
  | BUY, BUY | SELL, SELL | HOLD, HOLD
  | CLOSE_LONG, CLOSE_LONG | CLOSE_SHORT, CLOSE_SHORT => true
  | _, _ => false
  end.

(** The [.value] of the enumeration, as the log lines print it. *)
Definition SignalType_value (a : SignalType) : string :=
  match a with
  | BUY => "BUY" | SELL => "SELL" | HOLD => "HOLD"
  | CLOSE_LONG => "CLOSE_LONG" | CLOSE_SHORT => "CLOSE_SHORT"
  end%string.

(** [TradingSignal].  [metadata] is [None] or a dictionary; only its string
    entries are kept (the risk manager reads the key ["strategy"] alone). *)
Record TradingSignal (R : Type) : Type := {
  signal_type      : SignalType;
  sig_symbol       : string;
  price            : R;
  sig_quantity     : R;
  sig_stop_loss    : R;
  sig_take_profit_1 : R;
  sig_take_profit_2 : R;
  confidence       : R;
  reason           : string;
  metadata         : option (PyDict.t string)
}.

(** ** risk_manager.py: positions *)

Inductive PositionStatus : Type := OPEN | CLOSED | PARTIAL.

Record Position (R : Type) : Type := {
  symbol             : string;
  side               : string;   (* 'LONG' or 'SHORT' *)
  entry_price        : R;
  quantity           : R;
  stop_loss          : R;
  take_profit_1      : R;
  take_profit_2      : R;
  current_price      : R;
  status             : PositionStatus;
  tp1_hit            : bool;
  tp2_hit            : bool;
  remaining_quantity : R;
  unrealized_pnl     : R;
  realized_pnl       : R;
  strategy           : string;
  signal_confidence  : R
}.

Section PositionModel.
Context {R : Type} `{PyFloat R}.
Local Open Scope string_scope.
Local Open Scope pyfloat_scope.

(** Field assignments. *)
Definition set_current_price (p : Position R) (v : R) : Position R :=
  {| symbol := symbol p; side := side p; entry_price := entry_price p;
     quantity := quantity p; stop_loss := stop_loss p;
     take_profit_1 := take_profit_1 p; take_profit_2 := take_profit_2 p;
     current_price := v; status := status p; tp1_hit := tp1_hit p;
     tp2_hit := tp2_hit p; remaining_quantity := remaining_quantity p;
     unrealized_pnl := unrealized_pnl p; realized_pnl := realized_pnl p;
     strategy := strategy p; signal_confidence := signal_confidence p |}.

Definition set_unrealized_pnl (p : Position R) (v : R) : Position R :=
  {| symbol := symbol p; side := side p; entry_price := entry_price p;
     quantity := quantity p; stop_loss := stop_loss p;
     take_profit_1 := take_profit_1 p; take_profit_2 := take_profit_2 p;
     current_price := current_price p; status := status p;
     tp1_hit := tp1_hit p; tp2_hit := tp2_hit p;
     remaining_quantity := remaining_quantity p;
     unrealized_pnl := v; realized_pnl := realized_pnl p;
     strategy := strategy p; signal_confidence := signal_confidence p |}.

Definition set_realized_pnl (p : Position R) (v : R) : Position R :=
  {| symbol := symbol p; side := side p; entry_price := entry_price p;
     quantity := quantity p; stop_loss := stop_loss p;
     take_profit_1 := take_profit_1 p; take_profit_2 := take_profit_2 p;
     current_price := current_price p; status := status p;
     tp1_hit := tp1_hit p; tp2_hit := tp2_hit p;
     remaining_quantity := remaining_quantity p;
     unrealized_pnl := unrealized_pnl p; realized_pnl := v;
     strategy := strategy p; signal_confidence := signal_confidence p |}.

Definition set_remaining_quantity (p : Position R) (v : R) : Position R :=
  {| symbol := symbol p; side := side p; entry_price := entry_price p;
     quantity := quantity p; stop_loss := stop_loss p;
     take_profit_1 := take_profit_1 p; take_profit_2 := take_profit_2 p;
     current_price := current_price p; status := status p;
     tp1_hit := tp1_hit p; tp2_hit := tp2_hit p;
     remaining_quantity := v;
     unrealized_pnl := unrealized_pnl p; realized_pnl := realized_pnl p;
     strategy := strategy p; signal_confidence := signal_confidence p |}.

Definition set_stop_loss (p : Position R) (v : R) : Position R :=
  {| symbol := symbol p; side := side p; entry_price := entry_price p;
     quantity := quantity p; stop_loss := v;
     take_profit_1 := take_profit_1 p; take_profit_2 := take_profit_2 p;
     current_price := current_price p; status := status p;
     tp1_hit := tp1_hit p; tp2_hit := tp2_hit p;
     remaining_quantity := remaining_quantity p;
     unrealized_pnl := unrealized_pnl p; realized_pnl := realized_pnl p;
     strategy := strategy p; signal_confidence := signal_confidence p |}.

Definition set_status (p : Position R) (v : PositionStatus) : Position R :=
  {| symbol := symbol p; side := side p; entry_price := entry_price p;
     quantity := quantity p; stop_loss := stop_loss p;
     take_profit_1 := take_profit_1 p; take_profit_2 := take_profit_2 p;
     current_price := current_price p; status := v;
     tp1_hit := tp1_hit p; tp2_hit := tp2_hit p;
     remaining_quantity := remaining_quantity p;
     unrealized_pnl := unrealized_pnl p; realized_pnl := realized_pnl p;
     strategy := strategy p; signal_confidence := signal_confidence p |}.

Definition set_tp1_hit (p : Position R) (v : bool) : Position R :=
  {| symbol := symbol p; side := side p; entry_price := entry_price p;
     quantity := quantity p; stop_loss := stop_loss p;
     take_profit_1 := take_profit_1 p; take_profit_2 := take_profit_2 p;
     current_price := current_price p; status := status p;
     tp1_hit := v; tp2_hit := tp2_hit p;
     remaining_quantity := remaining_quantity p;
     unrealized_pnl := unrealized_pnl p; realized_pnl := realized_pnl p;
     strategy := strategy p; signal_confidence := signal_confidence p |}.

Definition set_tp2_hit (p : Position R) (v : bool) : Position R :=
  {| symbol := symbol p; side := side p; entry_price := entry_price p;
     quantity := quantity p; stop_loss := stop_loss p;
     take_profit_1 := take_profit_1 p; take_profit_2 := take_profit_2 p;
     current_price := current_price p; status := status p;
     tp1_hit := tp1_hit p; tp2_hit := v;
     remaining_quantity := remaining_quantity p;
     unrealized_pnl := unrealized_pnl p; realized_pnl := realized_pnl p;
     strategy := strategy p; signal_confidence := signal_confidence p |}.

(** [Position.__post_init__]: a zero [remaining_quantity] (the default) is
    replaced by [quantity]. *)
Definition __post_init__ (p : Position R) : Position R :=
  if remaining_quantity p ==? lit 0 1
  then set_remaining_quantity p (quantity p)
  else p.

(** [Position.update_price] *)
Definition update_price (p : Position R) (new_price : R) : Position R :=
  let p := set_current_price p new_price in
  let price_diff :=
    if String.eqb (side p) "LONG"
    then new_price - entry_price p
    else entry_price p - new_price in
  set_unrealized_pnl p (price_diff * remaining_quantity p).

(** [Position.get_total_pnl] *)
Definition get_total_pnl (p : Position R) : R :=
  realized_pnl p + unrealized_pnl p.

(** [Position.get_pnl_percentage] *)
Definition get_pnl_percentage (p : Position R) : R :=
  let initial_value := entry_price p * quantity p in
  if initial_value ==? lit 0 0 then lit 0 1
  else (get_total_pnl p / initial_value) * lit 100 0.

(** [Position.is_profitable] *)
Definition is_profitable (p : Position R) : bool :=
  get_total_pnl p >? lit 0 0.
End PositionModel.

(** ** risk_manager.py: the risk manager *)

Record RiskManager (R : Type) : Type := {
  initial_capital        : R;
  current_capital        : R;
  max_risk_per_trade     : R;
  max_portfolio_risk     : R;
  max_drawdown           : R;
  max_positions          : Z;
  min_risk_reward        : R;
  positions              : PyDict.t (Position R);
  position_history       : list (Position R);
  total_trades           : Z;
  winning_trades         : Z;
  total_fees             : R;
  max_historical_capital : R
}.

(** The dictionary returned by [get_portfolio_summary]. *)
Record PortfolioSummary (R : Type) : Type := {
  sum_initial_capital        : R;
  sum_current_capital        : R;
  sum_total_pnl              : R;
  sum_unrealized_pnl         : R;
  sum_total_trades           : Z;
  sum_winning_trades         : Z;
  sum_win_rate               : R;
  sum_active_positions       : Z;
  sum_portfolio_risk         : R;
  sum_current_drawdown       : R;
  sum_max_historical_capital : R
}.

Section RiskManagerModel.
Context {R : Type} `{PyFloat R}.
Local Open Scope string_scope.
Local Open Scope pyfloat_scope.

(** Attribute assignments on [self]. *)
Definition set_current_capital (s : RiskManager R) (v : R) : RiskManager R :=
  {| initial_capital := initial_capital s; current_capital := v;
     max_risk_per_trade := max_risk_per_trade s;
     max_portfolio_risk := max_portfolio_risk s;
     max_drawdown := max_drawdown s; max_positions := max_positions s;
     min_risk_reward := min_risk_reward s; positions := positions s;
     position_history := position_history s;
     total_trades := total_trades s; winning_trades := winning_trades s;
     total_fees := total_fees s;
     max_historical_capital := max_historical_capital s |}.

Definition set_positions (s : RiskManager R) (v : PyDict.t (Position R))
  : RiskManager R :=
  {| initial_capital := initial_capital s;
     current_capital := current_capital s;
     max_risk_per_trade := max_risk_per_trade s;
     max_portfolio_risk := max_portfolio_risk s;
     max_drawdown := max_drawdown s; max_positions := max_positions s;
     min_risk_reward := min_risk_reward s; positions := v;
     position_history := position_history s;
     total_trades := total_trades s; winning_trades := winning_trades s;
     total_fees := total_fees s;
     max_historical_capital := max_historical_capital s |}.

Definition set_position_history (s : RiskManager R) (v : list (Position R))
  : RiskManager R :=
  {| initial_capital := initial_capital s;
     current_capital := current_capital s;
     max_risk_per_trade := max_risk_per_trade s;
     max_portfolio_risk := max_portfolio_risk s;
     max_drawdown := max_drawdown s; max_positions := max_positions s;
     min_risk_reward := min_risk_reward s; positions := positions s;
     position_history := v;
     total_trades := total_trades s; winning_trades := winning_trades s;
     total_fees := total_fees s;
     max_historical_capital := max_historical_capital s |}.

Definition set_total_trades (s : RiskManager R) (v : Z) : RiskManager R :=
  {| initial_capital := initial_capital s;
     current_capital := current_capital s;
     max_risk_per_trade := max_risk_per_trade s;
     max_portfolio_risk := max_portfolio_risk s;
     max_drawdown := max_drawdown s; max_positions := max_positions s;
     min_risk_reward := min_risk_reward s; positions := positions s;
     position_history := position_history s;
     total_trades := v; winning_trades := winning_trades s;
     total_fees := total_fees s;
     max_historical_capital := max_historical_capital s |}.

Definition set_winning_trades (s : RiskManager R) (v : Z) : RiskManager R :=
  {| initial_capital := initial_capital s;
     current_capital := current_capital s;
     max_risk_per_trade := max_risk_per_trade s;
     max_portfolio_risk := max_portfolio_risk s;
     max_drawdown := max_drawdown s; max_positions := max_positions s;
     min_risk_reward := min_risk_reward s; positions := positions s;
     position_history := position_history s;
     total_trades := total_trades s; winning_trades := v;
     total_fees := total_fees s;
     max_historical_capital := max_historical_capital s |}.

Definition set_max_historical_capital (s : RiskManager R) (v : R)
  : RiskManager R :=
  {| initial_capital := initial_capital s;
     current_capital := current_capital s;
     max_risk_per_trade := max_risk_per_trade s;
     max_portfolio_risk := max_portfolio_risk s;
     max_drawdown := max_drawdown s; max_positions := max_positions s;
     min_risk_reward := min_risk_reward s; positions := positions s;
     position_history := position_history s;
     total_trades := total_trades s; winning_trades := winning_trades s;
     total_fees := total_fees s;
     max_historical_capital := v |}.

(** [RiskManager.__init__] *)
Definition RiskManager__init__
    (initial_capital max_risk_per_trade max_portfolio_risk max_drawdown : R)
    (max_positions : Z) (min_risk_reward : R) : RiskManager R :=
  {| initial_capital := initial_capital;
     current_capital := initial_capital;
     max_risk_per_trade := max_risk_per_trade;
     max_portfolio_risk := max_portfolio_risk;
     max_drawdown := max_drawdown;
     max_positions := max_positions;
     min_risk_reward := min_risk_reward;
     positions := PyDict.empty;
     position_history := [];
     total_trades := 0;
     winning_trades := 0;
     total_fees := lit 0 1;
     max_historical_capital := initial_capital |}.

(** The constructor with its default arguments. *)
Definition RiskManager_default (initial_capital : R) : RiskManager R :=
  RiskManager__init__ initial_capital (lit 2 2) (lit 10 2) (lit 15 2) 5
                      (lit 15 1).

(** The risk at stop of one position, as [get_portfolio_risk] adds it. *)
Definition position_risk (p : Position R) : R :=
  fabs (entry_price p - stop_loss p) * remaining_quantity p.

(** [RiskManager.get_portfolio_risk] *)
Definition get_portfolio_risk (s : RiskManager R) : R :=
  let total_risk :=
    fold_left (fun total_risk p => total_risk + position_risk p)
              (PyDict.values (positions s)) (lit 0 1) in
  if current_capital s ==? lit 0 0 then lit 0 1
  else total_risk / current_capital s.

(** [RiskManager.get_current_drawdown]; it raises the recorded peak. *)
Definition get_current_drawdown (s : RiskManager R) : R * RiskManager R :=
  if max_historical_capital s ==? lit 0 0 then (lit 0 1, s)
  else
    let s := set_max_historical_capital s
               (py_max (max_historical_capital s) (current_capital s)) in
    let drawdown :=
      (max_historical_capital s - current_capital s)
      / max_historical_capital s in
    (py_max (lit 0 1) drawdown, s).

(** [RiskManager.calculate_risk_reward_ratio] *)
Definition calculate_risk_reward_ratio (s : RiskManager R)
    (signal : TradingSignal R) : R :=
  let risk := fabs (price signal - sig_stop_loss signal) in
  let reward := fabs (sig_take_profit_1 signal - price signal) in
  if risk ==? lit 0 0 then lit 0 1 else reward / risk.

(** [RiskManager.can_open_position] *)
Definition can_open_position (s : RiskManager R) (signal : TradingSignal R)
  : bool * RiskManager R :=
  if (PyDict.len (positions s) >=? max_positions s)%Z then (false, s)
  else if PyDict.contains (positions s) (sig_symbol signal) then (false, s)
  else
    let current_portfolio_risk := get_portfolio_risk s in
    if current_portfolio_risk >=? max_portfolio_risk s then (false, s)
    else
      let (drawdown, s) := get_current_drawdown s in
      if drawdown >=? max_drawdown s then (false, s)
      else
        let risk_reward := calculate_risk_reward_ratio s signal in
        if risk_reward <? min_risk_reward s then (false, s)
        else (true, s).

(** [RiskManager.calculate_position_size]; the division by [signal.price]
    is not guarded in the source and raises when the price is zero. *)
Definition calculate_position_size (s : RiskManager R)
    (signal : TradingSignal R) : outcome R :=
  let max_risk_amount := current_capital s * max_risk_per_trade s in
  let price_diff := fabs (price signal - sig_stop_loss signal) in
  if price_diff ==? lit 0 0 then Returned (lit 0 1)
  else
    let position_size := max_risk_amount / price_diff in
    if price signal ==? lit 0 0 then Raised "ZeroDivisionError"
    else
      let max_affordable :=
        (current_capital s * lit 95 2) / price signal in
      let position_size := py_min position_size max_affordable in
      Returned (fround 8 position_size).

(** [RiskManager.open_position] *)
Definition open_position (s : RiskManager R) (signal : TradingSignal R)
    (quantity : R) : Position R * RiskManager R :=
  let side :=
    if SignalType_eqb (signal_type signal) BUY then "LONG" else "SHORT" in
  let position := __post_init__
    {| symbol := sig_symbol signal;
       side := side;
       entry_price := price signal;
       quantity := quantity;
       stop_loss := sig_stop_loss signal;
       take_profit_1 := sig_take_profit_1 signal;
       take_profit_2 := sig_take_profit_2 signal;
       current_price := price signal;
       status := OPEN;
       tp1_hit := false;
       tp2_hit := false;
       remaining_quantity := lit 0 1;
       unrealized_pnl := lit 0 1;
       realized_pnl := lit 0 1;
       strategy :=
         match metadata signal with
         | Some m =>
             match PyDict.get m "strategy" with Some v => v | None => "" end
         | None => ""
         end;
       signal_confidence := confidence signal |} in
  let s := set_positions s
             (PyDict.set (positions s) (sig_symbol signal) position) in
  let s := set_total_trades s (total_trades s + 1)%Z in
  (position, s).

(** [RiskManager._should_stop_loss] *)
Definition _should_stop_loss (position : Position R) : bool :=
  if String.eqb (side position) "LONG"
  then current_price position <=? stop_loss position
  else current_price position >=? stop_loss position.

(** [RiskManager._should_take_profit_1] *)
Definition _should_take_profit_1 (position : Position R) : bool :=
  if String.eqb (side position) "LONG"
  then current_price position >=? take_profit_1 position
  else current_price position <=? take_profit_1 position.

(** [RiskManager._should_take_profit_2] *)
Definition _should_take_profit_2 (position : Position R) : bool :=
  if String.eqb (side position) "LONG"
  then current_price position >=? take_profit_2 position
  else current_price position <=? take_profit_2 position.

(** [RiskManager.update_position] *)
Definition update_position (s : RiskManager R) (symbol : string)
    (current_price : R) : option string * RiskManager R :=
  match PyDict.get (positions s) symbol with
  | None => (None, s)
  | Some position =>
      let position := update_price position current_price in
      let s := set_positions s (PyDict.set (positions s) symbol position) in
      if _should_stop_loss position then (Some "stop_loss", s)
      else if negb (tp1_hit position) && _should_take_profit_1 position
      then (Some "take_profit_1", s)
      else if tp1_hit position && negb (tp2_hit position)
              && _should_take_profit_2 position
      then (Some "take_profit_2", s)
      else (None, s)
  end.

(** The profit or loss that closing the fraction [partial_close] of a
    position realizes at its current price. *)
Definition close_pnl (position : Position R) (partial_close : R) : R :=
  let close_quantity := remaining_quantity position * partial_close in
  let price_diff :=
    if String.eqb (side position) "LONG"
    then current_price position - entry_price position
    else entry_price position - current_price position in
  price_diff * close_quantity.

(** [RiskManager.close_position] *)
Definition close_position (s : RiskManager R) (symbol reason : string)
    (partial_close : R) : option (Position R) * RiskManager R :=
  match PyDict.get (positions s) symbol with
  | None => (None, s)
  | Some position =>
      let close_quantity := remaining_quantity position * partial_close in
      let realized_pnl_ := close_pnl position partial_close in
      let position :=
        set_realized_pnl position (realized_pnl position + realized_pnl_) in
      let position :=
        set_remaining_quantity position
          (remaining_quantity position - close_quantity) in
      let s := set_current_capital s (current_capital s + realized_pnl_) in
      let s :=
        if realized_pnl_ >? lit 0 0
        then set_winning_trades s (winning_trades s + 1)%Z else s in
      let position :=
        if String.eqb reason "take_profit_1" then
          set_stop_loss (set_status (set_tp1_hit position true) PARTIAL)
                        (entry_price position)
        else if String.eqb reason "take_profit_2" then
          set_status (set_tp2_hit position true) CLOSED
        else if partial_close >=? lit 10 1 then
          set_status position CLOSED
        else position in
      if remaining_quantity position <=? lit 1 3 then
        let position := set_status position CLOSED in
        let s := set_position_history s (position_history s ++ [position]) in
        let s := set_positions s (PyDict.del (positions s) symbol) in
        (Some position, s)
      else
        let s :=
          set_positions s (PyDict.set (positions s) symbol position) in
        (Some position, s)
  end.

(** [RiskManager.get_portfolio_summary] *)
Definition get_portfolio_summary (s : RiskManager R)
  : PortfolioSummary R * RiskManager R :=
  let total_unrealized_pnl :=
    py_sum (map (@unrealized_pnl R) (PyDict.values (positions s))) in
  let total_realized_pnl := current_capital s - initial_capital s in
  let win_rate :=
    if (total_trades s >? 0)%Z
    then of_int (winning_trades s) / of_int (total_trades s) * lit 100 0
    else lit 0 0 in
  let portfolio_risk := fround 2 (get_portfolio_risk s * lit 100 0) in
  let (drawdown, s') := get_current_drawdown s in
  ({| sum_initial_capital := initial_capital s;
      sum_current_capital := current_capital s;
      sum_total_pnl := total_realized_pnl;
      sum_unrealized_pnl := total_unrealized_pnl;
      sum_total_trades := total_trades s;
      sum_winning_trades := winning_trades s;
      sum_win_rate := fround 2 win_rate;
      sum_active_positions := PyDict.len (positions s);
      sum_portfolio_risk := portfolio_risk;
      sum_current_drawdown := fround 2 (drawdown * lit 100 0);
      sum_max_historical_capital := max_historical_capital s' |}, s').

(** [RiskManager.get_active_positions] (the positions themselves stand for
    their [to_dict()] images). *)
Definition get_active_positions (s : RiskManager R) : list (Position R) :=
  PyDict.values (positions s).
End RiskManagerModel.

(** ** market_data.py: the records the engine consumes *)

Record OHLCVData (R : Type) : Type := {
  ohlcv_open   : R;
  ohlcv_high   : R;
  ohlcv_low    : R;
  ohlcv_close  : R;
  ohlcv_volume : R;
  ohlcv_symbol : string
}.

Record TickerData (R : Type) : Type := {
  ticker_symbol     : string;
  ticker_price      : R;
  ticker_bid        : R;
  ticker_ask        : R;
  ticker_volume_24h : R;
  ticker_change_24h : R
}.

(** ** trading_engine.py: the orchestrator *)

(** One record per [self.logger] call of the candle and ticker paths. *)
Inductive LogRecord (R : Type) : Type :=
| InfoSignalGenerated (signal : TradingSignal R)
| WarnCannotOpen
| WarnInvalidSize (quantity : R)
| InfoExecuting (signal : TradingSignal R) (quantity : R)
| InfoOpened (symbol : string)
| InfoExit (exit_action symbol : string) (total_pnl : R)
| InfoManuallyClosed (symbol reason : string)
| InfoTradingEnabled
| InfoTradingDisabled
| ErrorMarketData (exn : string)
| ErrorSignal (exn : string).
Arguments WarnCannotOpen {R}.
Arguments InfoOpened {R} symbol.
Arguments InfoManuallyClosed {R} symbol reason.
Arguments InfoTradingEnabled {R}.
Arguments InfoTradingDisabled {R}.
Arguments ErrorMarketData {R} exn.
Arguments ErrorSignal {R} exn.

(** The dictionary handed to the trade callbacks. *)
Record TradeEvent (R : Type) : Type := {
  action      : string;
  ev_symbol   : option string;
  ev_signal   : option (TradingSignal R);
  ev_position : Position R
}.

(** Calls the engine makes on its collaborators.  The list of calls is kept
    next to the engine state so that a property can say that a method was or
    was not invoked; nothing in the engine reads it. *)
Inductive Call : Type :=
| CallStrategyUpdate
| CallCanOpenPosition (symbol : string)
| CallCalculatePositionSize (symbol : string)
| CallOpenPosition (symbol : string)
| CallUpdatePosition (symbol : string)
| CallClosePosition (symbol reason : string).

(** The engine's attributes.  [S] is the state of the strategy object;
    [trade_events] is the sequence of dictionaries delivered to the registered
    callbacks (each callback runs under its own [try]); [calls] is the call
    record described above.  The market-data handler and the configuration
    only feed the two handlers below and are not part of the state. *)
Record TradingEngine (R S : Type) : Type := {
  strategy_state     : S;
  risk_manager       : RiskManager R;
  is_running         : bool;
  is_trading_enabled : bool;
  last_signal        : option (TradingSignal R);
  signals_generated  : Z;
  trades_executed    : Z;
  log                : list (LogRecord R);
  trade_events       : list (TradeEvent R);
  calls              : list Call
}.

Section TradingEngineModel.
Context {R : Type} `{PyFloat R}.
Context {S : Type}.

(** [self.strategy.update(ohlcv)]: the strategy contract, with the state
    the call leaves behind. *)
Variable strategy_update :
  S -> OHLCVData R -> outcome (option (TradingSignal R)) * S.

Local Open Scope string_scope.
Local Open Scope pyfloat_scope.

Local Abbreviation Engine := (TradingEngine R S).

Definition set_strategy_state (e : Engine) (v : S) : Engine :=
  {| strategy_state := v; risk_manager := risk_manager e;
     is_running := is_running e;
     is_trading_enabled := is_trading_enabled e;
     last_signal := last_signal e;
     signals_generated := signals_generated e;
     trades_executed := trades_executed e; log := log e;
     trade_events := trade_events e; calls := calls e |}.

Definition set_risk_manager (e : Engine) (v : RiskManager R) : Engine :=
  {| strategy_state := strategy_state e; risk_manager := v;
     is_running := is_running e;
     is_trading_enabled := is_trading_enabled e;
     last_signal := last_signal e;
     signals_generated := signals_generated e;
     trades_executed := trades_executed e; log := log e;
     trade_events := trade_events e; calls := calls e |}.

Definition set_is_trading_enabled (e : Engine) (v : bool) : Engine :=
  {| strategy_state := strategy_state e; risk_manager := risk_manager e;
     is_running := is_running e;
     is_trading_enabled := v;
     last_signal := last_signal e;
     signals_generated := signals_generated e;
     trades_executed := trades_executed e; log := log e;
     trade_events := trade_events e; calls := calls e |}.

Definition set_last_signal (e : Engine) (v : option (TradingSignal R))
  : Engine :=
  {| strategy_state := strategy_state e; risk_manager := risk_manager e;
     is_running := is_running e;
     is_trading_enabled := is_trading_enabled e;
     last_signal := v;
     signals_generated := signals_generated e;
     trades_executed := trades_executed e; log := log e;
     trade_events := trade_events e; calls := calls e |}.

Definition set_signals_generated (e : Engine) (v : Z) : Engine :=
  {| strategy_state := strategy_state e; risk_manager := risk_manager e;
     is_running := is_running e;
     is_trading_enabled := is_trading_enabled e;
     last_signal := last_signal e;
     signals_generated := v;
     trades_executed := trades_executed e; log := log e;
     trade_events := trade_events e; calls := calls e |}.

Definition set_trades_executed (e : Engine) (v : Z) : Engine :=
  {| strategy_state := strategy_state e; risk_manager := risk_manager e;
     is_running := is_running e;
     is_trading_enabled := is_trading_enabled e;
     last_signal := last_signal e;
     signals_generated := signals_generated e;
     trades_executed := v; log := log e;
     trade_events := trade_events e; calls := calls e |}.

(** [self.logger.info/warning/error(...)] *)
Definition logger (e : Engine) (r : LogRecord R) : Engine :=
  {| strategy_state := strategy_state e; risk_manager := risk_manager e;
     is_running := is_running e;
     is_trading_enabled := is_trading_enabled e;
     last_signal := last_signal e;
     signals_generated := signals_generated e;
     trades_executed := trades_executed e; log := log e ++ [r];
     trade_events := trade_events e; calls := calls e |}.

(** [TradingEngine._notify_trade_callbacks] *)
Definition _notify_trade_callbacks (e : Engine) (trade_data : TradeEvent R)
  : Engine :=
  {| strategy_state := strategy_state e; risk_manager := risk_manager e;
     is_running := is_running e;
     is_trading_enabled := is_trading_enabled e;
     last_signal := last_signal e;
     signals_generated := signals_generated e;
     trades_executed := trades_executed e; log := log e;
     trade_events := trade_events e ++ [trade_data]; calls := calls e |}.

(** Recording a call on a collaborator. *)
Definition called (e : Engine) (c : Call) : Engine :=
  {| strategy_state := strategy_state e; risk_manager := risk_manager e;
     is_running := is_running e;
     is_trading_enabled := is_trading_enabled e;
     last_signal := last_signal e;
     signals_generated := signals_generated e;
     trades_executed := trades_executed e; log := log e;
     trade_events := trade_events e; calls := calls e ++ [c] |}.

(** [TradingEngine._execute_trade] *)
Definition _execute_trade (e : Engine) (signal : TradingSignal R)
    (quantity : R) : Engine :=
  let e := logger e (InfoExecuting signal quantity) in
  let e := called e (CallOpenPosition (sig_symbol signal)) in
  let (position, rm) := open_position (risk_manager e) signal quantity in
  let e := set_risk_manager e rm in
  let e := set_trades_executed e (trades_executed e + 1)%Z in
  let e := _notify_trade_callbacks e
    {| action := "open_position"; ev_symbol := None;
       ev_signal := Some signal; ev_position := position |} in
  logger e (InfoOpened (symbol position)).

(** [TradingEngine._close_position] *)
Definition _close_position (e : Engine) (symbol reason : string) : Engine :=
  if PyDict.contains (positions (risk_manager e)) symbol then
    let e := called e (CallClosePosition symbol reason) in
    let (closed_position, rm) :=
      close_position (risk_manager e) symbol reason (lit 10 1) in
    let e := set_risk_manager e rm in
    match closed_position with
    | Some _ => logger e (InfoManuallyClosed symbol reason)
    | None => e
    end
  else e.

(** [TradingEngine._process_signal] *)
Definition _process_signal (e : Engine) (signal : TradingSignal R)
  : Engine :=
  match signal_type signal with
  | BUY | SELL =>
      let e := called e (CallCanOpenPosition (sig_symbol signal)) in
      let (ok, rm) := can_open_position (risk_manager e) signal in
      let e := set_risk_manager e rm in
      if negb ok then logger e WarnCannotOpen
      else
        let e := called e (CallCalculatePositionSize (sig_symbol signal)) in
        match calculate_position_size (risk_manager e) signal with
        | Raised exn => logger e (ErrorSignal exn)
        | Returned quantity =>
            if quantity <=? lit 0 0
            then logger e (WarnInvalidSize quantity)
            else _execute_trade e signal quantity
        end
  | CLOSE_LONG | CLOSE_SHORT =>
      _close_position e (sig_symbol signal) "manual_close"
  | HOLD => e
  end.

(** [TradingEngine._handle_position_exit] *)
Definition _handle_position_exit (e : Engine) (symbol exit_action : string)
  : Engine :=
  let partial_close :=
    if String.eqb exit_action "take_profit_1" then lit 5 1 else lit 10 1 in
  let e := called e (CallClosePosition symbol exit_action) in
  let (closed_position, rm) :=
    close_position (risk_manager e) symbol exit_action partial_close in
  let e := set_risk_manager e rm in
  match closed_position with
  | Some closed_position =>
      let e :=
        logger e (InfoExit exit_action symbol
                           (get_total_pnl closed_position)) in
      _notify_trade_callbacks e
        {| action := exit_action; ev_symbol := Some symbol;
           ev_signal := None; ev_position := closed_position |}
  | None => e
  end.

(** The body of the loop of [_update_positions]. *)
Definition update_one (current_price : R) (e : Engine) (symbol : string)
  : Engine :=
  let e := called e (CallUpdatePosition symbol) in
  let (exit_action, rm) :=
    update_position (risk_manager e) symbol current_price in
  let e := set_risk_manager e rm in
  match exit_action with
  | Some exit_action => _handle_position_exit e symbol exit_action
  | None => e
  end.

(** [TradingEngine._update_positions]: the symbols are listed before the
    loop starts.  (The guard on [self.risk_manager] and [self.strategy] never
    fires: the constructor sets both or raises.) *)
Definition _update_positions (e : Engine) (current_price : R) : Engine :=
  let symbols_to_process := PyDict.keys (positions (risk_manager e)) in
  fold_left (update_one current_price) symbols_to_process e.

(** [TradingEngine._on_market_data] *)
Definition _on_market_data (e : Engine) (ohlcv : OHLCVData R) : Engine :=
  if negb (is_trading_enabled e) then e
  else
    let e := called e CallStrategyUpdate in
    let (result, st) := strategy_update (strategy_state e) ohlcv in
    let e := set_strategy_state e st in
    match result with
    | Raised exn => logger e (ErrorMarketData exn)
    | Returned signal =>
        let e :=
          match signal with
          | Some signal =>
              let e :=
                set_signals_generated e (signals_generated e + 1)%Z in
              let e := set_last_signal e (Some signal) in
              let e := logger e (InfoSignalGenerated signal) in
              _process_signal e signal
          | None => e
          end in
        _update_positions e (ohlcv_close ohlcv)
    end.

(** [TradingEngine._on_ticker_data] (the risk manager is always set). *)
Definition _on_ticker_data (e : Engine) (ticker : TickerData R) : Engine :=
  _update_positions e (ticker_price ticker).

(** [TradingEngine.enable_trading] and [TradingEngine.disable_trading] *)
Definition enable_trading (e : Engine) : Engine :=
  logger (set_is_trading_enabled e true) InfoTradingEnabled.

Definition disable_trading (e : Engine) : Engine :=
  logger (set_is_trading_enabled e false) InfoTradingDisabled.
End TradingEngineModel.

(** ** The exact instance: floats as rationals *)

Module Exact.
Local Open Scope Q_scope.

(** [10^k] as a denominator. *)
Definition pow10 (k : nat) : positive := Z.to_pos (10 ^ Z.of_nat k).

(** The literal with digits [m] and [k] decimals. *)
Definition Qlit (m : Z) (k : nat) : Q := Qred (m # pow10 k).

(** Rounding to the nearest integer, ties to the even one. *)
Definition round_half_even (x : Q) : Z :=
  let f := Qfloor x in
  match Qcompare (x - inject_Z f) (1 # 2) with
  | Lt => f
  | Gt => (f + 1)%Z
  | Eq => if Z.even f then f else (f + 1)%Z
  end.

(** [round(x, n)]: the nearest multiple of [10^-n], ties to even. *)
Definition Qround_py (n : nat) (x : Q) : Q :=
  Qred (round_half_even (x * inject_Z (Zpos (pow10 n))) # pow10 n).

(** Every operation returns its result in lowest terms, so that equal
    numbers are equal terms. *)
#[export] Instance Q_PyFloat : PyFloat Q := {|
  lit := Qlit;
  of_int := inject_Z;
  fadd := fun x y => Qred (x + y);
  fsub := fun x y => Qred (x - y);
  fmul := fun x y => Qred (x * y);
  fdiv := fun x y => Qred (x / y);
  fabs := fun x => Qred (Qabs x);
  feqb := Qeq_bool;
  fltb := fun x y => negb (Qle_bool y x);
  fleb := Qle_bool;
  fround := Qround_py
|}.
End Exact.
Export Exact.

(** ** The binary64 instance: floats as IEEE doubles *)

(** The carrier is Rocq's primitive [float], whose operations are the IEEE
    754 binary64 ones with rounding to nearest even, as CPython's are.  The
    instance serves to run the model on the very numbers the interpreter
    computes. *)
Module Binary64.

(** A Python [int] as a double (exact below [2^53]). *)
Definition of_Z (z : Z) : float :=
  if (z <? 0)%Z
  then PrimFloat.opp (PrimFloat.of_uint63 (Uint63.of_Z (- z)))
  else PrimFloat.of_uint63 (Uint63.of_Z z).

(** The literal with digits [m] and [k] decimals: the double nearest to
    [m / 10^k].  Both operands are exact for the literals of the source, so
    the correctly rounded quotient is the correctly rounded literal. *)
Definition flit (m : Z) (k : nat) : float :=
  PrimFloat.div (of_Z m) (of_Z (10 ^ Z.of_nat k)).

(** The rational a finite double stands for. *)
Definition to_Q (x : float) : option Q :=
  match Prim2SF x with
  | S754_zero _ => Some 0%Q
  | S754_finite s m e =>
      let v :=
        if (0 <=? e)%Z then inject_Z (Zpos m * 2 ^ e)
        else (Zpos m # Z.to_pos (2 ^ (- e)))%Q in
      Some (if s then Qopp v else v)
  | S754_infinity _ | S754_nan => None
  end.

(** [round(x, n)]: the exact value of [x] is rounded to [n] decimals, ties
    to even, and the decimal obtained is converted back to the nearest
    double.  Infinities and NaN are returned as they are, and so is a double
    too large to have [n] decimals. *)
Definition fround64 (n : nat) (x : float) : float :=
  match to_Q x with
  | None => x
  | Some q =>
      let z := round_half_even (q * inject_Z (Zpos (pow10 n))) in
      if (z =? 0)%Z then PrimFloat.mul x PrimFloat.zero
      else if (Z.abs z <? 2 ^ 53)%Z
      then PrimFloat.div (of_Z z) (of_Z (Zpos (pow10 n)))
      else x
  end.

#[export] Instance Binary64_PyFloat : PyFloat float | 10 := {|
  lit := flit;
  of_int := of_Z;
  fadd := PrimFloat.add;
  fsub := PrimFloat.sub;
  fmul := PrimFloat.mul;
  fdiv := PrimFloat.div;
  fabs := PrimFloat.abs;
  feqb := PrimFloat.eqb;
  fltb := PrimFloat.ltb;
  fleb := PrimFloat.leb;
  fround := fround64
|}.
End Binary64.
Export Binary64.

(** ** Sequences of risk-manager calls *)

(** The public operations of the risk manager, as a caller can issue them. *)
Inductive RiskOp (R : Type) : Type :=
| OpCanOpenPosition (signal : TradingSignal R)
| OpCalculatePositionSize (signal : TradingSignal R)
| OpCalculateRiskRewardRatio (signal : TradingSignal R)
| OpOpenPosition (signal : TradingSignal R) (quantity : R)
| OpUpdatePosition (symbol : string) (current_price : R)
| OpClosePosition (symbol reason : string) (partial_close : R)
| OpGetPortfolioRisk
| OpGetCurrentDrawdown
| OpGetPortfolioSummary
| OpGetActivePositions.
Arguments OpGetPortfolioRisk {R}.
Arguments OpGetCurrentDrawdown {R}.
Arguments OpGetPortfolioSummary {R}.
Arguments OpGetActivePositions {R}.

Section RiskOps.
Context {R : Type} `{PyFloat R}.

(** The state an operation leaves behind. *)
Definition apply_op (s : RiskManager R) (op : RiskOp R) : RiskManager R :=
  match op with
  | OpCanOpenPosition signal => snd (can_open_position s signal)
  | OpCalculatePositionSize _ => s
  | OpCalculateRiskRewardRatio _ => s
  | OpOpenPosition signal quantity => snd (open_position s signal quantity)
  | OpUpdatePosition symbol current_price =>
      snd (update_position s symbol current_price)
  | OpClosePosition symbol reason partial_close =>
      snd (close_position s symbol reason partial_close)
  | OpGetPortfolioRisk => s
  | OpGetCurrentDrawdown => snd (get_current_drawdown s)
  | OpGetPortfolioSummary => snd (get_portfolio_summary s)
  | OpGetActivePositions => s
  end.

Definition run_ops (s : RiskManager R) (ops : list (RiskOp R))
  : RiskManager R :=
  fold_left apply_op ops s.

(** The P&L an operation realizes: only a close of a held symbol realizes
    any, namely [close_pnl] of the position it closes. *)
Definition realized_delta (s : RiskManager R) (op : RiskOp R) : option R :=
  match op with
  | OpClosePosition symbol _ partial_close =>
      match PyDict.get (positions s) symbol with
      | Some position => Some (close_pnl position partial_close)
      | None => None
      end
  | _ => None
  end.

(** The realized deltas of a sequence of operations, in order. *)
Fixpoint realized_deltas (s : RiskManager R) (ops : list (RiskOp R))
  : list R :=
  match ops with
  | [] => []
  | op :: ops' =>
      match realized_delta s op with
      | Some d => d :: realized_deltas (apply_op s op) ops'
      | None => realized_deltas (apply_op s op) ops'
      end
  end.
End RiskOps.

(** ** Monitoring calls *)


(** ** The sum behind the portfolio risk *)

(** The total that [get_portfolio_risk] divides by the capital. *)
Definition total_risk {R : Type} `{PyFloat R} (d : PyDict.t (Position R))
  : R :=
  fold_left (fun total_risk p => fadd total_risk (position_risk p))
            (PyDict.values d) (lit 0 1).

(** ** Sizing as the specification words it *)




(** ** Concrete runs *)

(** The runs are written once for every carrier [R]; [Scenario.rm0 Q] is the
    run on exact rationals and [Scenario.rm0 float] the run on doubles. *)

Module Scenario.
Local Unset Implicit Arguments.
Local Open Scope string_scope.

Section Runs.
Variable R : Type.
Context {F : PyFloat R}.

(** A BUY signal for [NOICEUSDT]: entry 1.0, stop 0.95, targets 1.10 and
    1.20. *)
Definition noice_buy : TradingSignal R :=
  {| signal_type := BUY; sig_symbol := "NOICEUSDT";
     price := lit 10 1; sig_quantity := lit 0 1;
     sig_stop_loss := lit 95 2;
     sig_take_profit_1 := lit 110 2; sig_take_profit_2 := lit 120 2;
     confidence := lit 8 1; reason := "EMA bullish";
     metadata := Some [("strategy", "NOICEStrategy")] |}.

(** A risk manager with the constructor's defaults and a capital of 10000. *)
Definition rm0 : RiskManager R := RiskManager_default (lit 100000 1).

(** The LONG position of 10 units opened on [noice_buy], and the risk
    manager that holds it. *)
Definition long_position : Position R :=
  fst (open_position rm0 noice_buy (lit 10 0)).

Definition rm_long : RiskManager R :=
  snd (open_position rm0 noice_buy (lit 10 0)).

(** A BUY signal whose stop lies above its first target, so that one price
    can meet both. *)
Definition crossed_buy : TradingSignal R :=
  {| signal_type := BUY; sig_symbol := "NOICEUSDT";
     price := lit 1000 1; sig_quantity := lit 0 1;
     sig_stop_loss := lit 1050 1;
     sig_take_profit_1 := lit 950 1; sig_take_profit_2 := lit 900 1;
     confidence := lit 8 1; reason := "crossed levels";
     metadata := None |}.

Definition crossed_position : Position R :=
  fst (open_position rm0 crossed_buy (lit 1 0)).

Definition rm_crossed : RiskManager R :=
  snd (open_position rm0 crossed_buy (lit 1 0)).

(** A strategy that never signals. *)
Definition idle_strategy (st : unit) (ohlcv : OHLCVData R)
  : outcome (option (TradingSignal R)) * unit :=
  (Returned None, st).

(** A strategy that signals [noice_buy] on every candle. *)
Definition eager_strategy (st : unit) (ohlcv : OHLCVData R)
  : outcome (option (TradingSignal R)) * unit :=
  (Returned (Some noice_buy), st).

(** A freshly started engine around a given risk manager. *)
Definition engine_of (rm : RiskManager R) : TradingEngine R unit :=
  {| strategy_state := tt; risk_manager := rm;
     is_running := true; is_trading_enabled := true;
     last_signal := None; signals_generated := 0; trades_executed := 0;
     log := []; trade_events := []; calls := [] |}.

(** A ticker and a candle for [NOICEUSDT] at a given price. *)
Definition ticker_at (p : R) : TickerData R :=
  {| ticker_symbol := "NOICEUSDT"; ticker_price := p;
     ticker_bid := p; ticker_ask := p;
     ticker_volume_24h := lit 0 1; ticker_change_24h := lit 0 1 |}.

Definition candle_at (p : R) : OHLCVData R :=
  {| ohlcv_open := p; ohlcv_high := p; ohlcv_low := p; ohlcv_close := p;
     ohlcv_volume := lit 1000 0; ohlcv_symbol := "NOICEUSDT" |}.

(** The engine holding the LONG position, after a tick at 1.10 and after a
    further tick at 0.99. *)
Definition engine_long : TradingEngine R unit := engine_of rm_long.

Definition after_tp1 : TradingEngine R unit :=
  _on_ticker_data engine_long (ticker_at (lit 110 2)).

Definition after_stop : TradingEngine R unit :=
  _on_ticker_data after_tp1 (ticker_at (lit 99 2)).

(** The engine holding the LONG position with trading disabled, and what a
    candle closing at 1.05 leaves of it when the strategy would signal. *)
Definition engine_disabled : TradingEngine R unit :=
  disable_trading engine_long.

Definition disabled_after_candle : TradingEngine R unit :=
  _on_market_data eager_strategy engine_disabled (candle_at (lit 105 2)).

(** The same candle with trading enabled, and a tick at 1.05 with trading
    disabled. *)
Definition enabled_after_candle : TradingEngine R unit :=
  _on_market_data eager_strategy engine_long (candle_at (lit 105 2)).


(** The same position taken to its second target instead. *)
Definition after_tp2 : TradingEngine R unit :=
  _on_ticker_data after_tp1 (ticker_at (lit 120 2)).

(** The sizing example: entry 100, stop 98. *)
Definition sizing_buy : TradingSignal R :=
  {| signal_type := BUY; sig_symbol := "NOICEUSDT";
     price := lit 100 0; sig_quantity := lit 0 1;
     sig_stop_loss := lit 98 0;
     sig_take_profit_1 := lit 104 0; sig_take_profit_2 := lit 108 0;
     confidence := lit 8 1; reason := "sizing"; metadata := None |}.

(** A short sale at 100 with stop 102 and targets 97 and 94, signalled on
    every candle; the engine opens it on a candle closing at 100, and the
    next tick arrives at 300, far through the stop. *)
Definition short_sell : TradingSignal R :=
  {| signal_type := SELL; sig_symbol := "NOICEUSDT";
     price := lit 100 0; sig_quantity := lit 0 1;
     sig_stop_loss := lit 102 0;
     sig_take_profit_1 := lit 97 0; sig_take_profit_2 := lit 94 0;
     confidence := lit 8 1; reason := "EMA bearish"; metadata := None |}.

Definition short_strategy (st : unit) (ohlcv : OHLCVData R)
  : outcome (option (TradingSignal R)) * unit :=
  (Returned (Some short_sell), st).

Definition after_short_open : TradingEngine R unit :=
  _on_market_data short_strategy (engine_of rm0) (candle_at (lit 100 0)).

Definition after_gap : TradingEngine R unit :=
  _on_ticker_data after_short_open (ticker_at (lit 300 0)).

(** A BUY at 3 with a stop at 2.99: the cash cap, 9500 / 3, decides the
    size. *)
Definition tight_buy : TradingSignal R :=
  {| signal_type := BUY; sig_symbol := "NOICEUSDT";
     price := lit 3 0; sig_quantity := lit 0 1;
     sig_stop_loss := lit 299 2;
     sig_take_profit_1 := lit 302 2; sig_take_profit_2 := lit 304 2;
     confidence := lit 8 1; reason := "tight stop"; metadata := None |}.

Definition after_tight_open : TradingEngine R unit :=
  _process_signal (engine_of rm0) tight_buy.

(** A risk manager that risks 6% per trade under the default 10% portfolio
    ceiling, and two BUY signals on different symbols, each at 100 with its
    stop at 90 and its first target at 115. *)
Definition rm_wide : RiskManager R :=
  RiskManager__init__ (lit 100000 1) (lit 6 2) (lit 10 2) (lit 15 2) 5
                      (lit 15 1).

Definition wide_buy (symbol : string) : TradingSignal R :=
  {| signal_type := BUY; sig_symbol := symbol;
     price := lit 1000 1; sig_quantity := lit 0 1;
     sig_stop_loss := lit 900 1;
     sig_take_profit_1 := lit 1150 1; sig_take_profit_2 := lit 1300 1;
     confidence := lit 8 1; reason := "breakout"; metadata := None |}.

Definition after_first_open : TradingEngine R unit :=
  _process_signal (engine_of rm_wide) (wide_buy "AAAUSDT").

Definition after_second_open : TradingEngine R unit :=
  _process_signal after_first_open (wide_buy "BBBUSDT").

(** A small LONG position, 0.001 units at 50000 with its first target at
    52000, and the tick that reaches the target. *)
Definition small_buy : TradingSignal R :=
  {| signal_type := BUY; sig_symbol := "BTCUSDT";
     price := lit 50000 0; sig_quantity := lit 0 1;
     sig_stop_loss := lit 49000 0;
     sig_take_profit_1 := lit 52000 0; sig_take_profit_2 := lit 54000 0;
     confidence := lit 8 1; reason := "small"; metadata := None |}.


Definition rm_small : RiskManager R :=
  snd (open_position rm0 small_buy (lit 1 3)).

Definition small_after_tp1 : TradingEngine R unit :=
  _on_ticker_data (engine_of rm_small)
    {| ticker_symbol := "BTCUSDT"; ticker_price := lit 52000 0;
       ticker_bid := lit 52000 0; ticker_ask := lit 52000 0;
       ticker_volume_24h := lit 0 1; ticker_change_24h := lit 0 1 |}.
End Runs.
End Scenario.

(** * Properties *)

(** ** Dictionaries *)

Module PyDictFacts.
Import PyDict.

Lemma contains_false_get {V} (d : t V) (k : string) :
  contains d k = false -> get d k = None.
Proof.
  unfold contains. destruct (get d k); [discriminate | reflexivity].
Qed.



End PyDictFacts.

(** ** Properties that hold for every float carrier *)

Section Structural.
Context {R : Type} `{PyFloat R}.
Local Open Scope string_scope.

(** A symbol that is not held: both calls return [None] at once. *)
Lemma update_position_absent (s : RiskManager R) (symbol : string)
    (current_price : R) :
  PyDict.get (positions s) symbol = None ->
  update_position s symbol current_price = (None, s).
Proof. unfold update_position. now intros ->. Qed.

Lemma close_position_absent (s : RiskManager R) (symbol reason : string)
    (partial_close : R) :
  PyDict.get (positions s) symbol = None ->
  close_position s symbol reason partial_close = (None, s).
Proof. unfold close_position. now intros ->. Qed.

(** [update_price] touches the current price and the unrealized P&L only. *)
Lemma update_price_fields (p : Position R) (new_price : R) :
  let p' := update_price p new_price in
  current_price p' = new_price /\
  side p' = side p /\ entry_price p' = entry_price p /\
  stop_loss p' = stop_loss p /\
  take_profit_1 p' = take_profit_1 p /\ take_profit_2 p' = take_profit_2 p /\
  tp1_hit p' = tp1_hit p /\ tp2_hit p' = tp2_hit p /\
  remaining_quantity p' = remaining_quantity p /\
  realized_pnl p' = realized_pnl p /\ status p' = status p.
Proof. unfold update_price; simpl; tauto. Qed.

(** What a close of a held symbol does to the ledger and to the position. *)
Lemma close_position_present (s : RiskManager R) (symbol reason : string)
    (partial_close : R) (position : Position R) :
  PyDict.get (positions s) symbol = Some position ->
  exists position' s',
    close_position s symbol reason partial_close = (Some position', s') /\
    current_capital s' =
      fadd (current_capital s) (close_pnl position partial_close) /\
    realized_pnl position' =
      fadd (realized_pnl position) (close_pnl position partial_close) /\
    remaining_quantity position' =
      fsub (remaining_quantity position)
           (fmul (remaining_quantity position) partial_close) /\
    total_trades s' = total_trades s /\
    winning_trades s' =
      (if fltb (lit 0 0) (close_pnl position partial_close)
       then winning_trades s + 1 else winning_trades s)%Z.
Proof.
  unfold close_position. intros ->.
  set (d := close_pnl position partial_close).
  destruct (fltb (lit 0 0) d) eqn:Hwin;
    destruct (String.eqb reason "take_profit_1");
    [| destruct (String.eqb reason "take_profit_2");
       [| destruct (fleb (lit 10 1) partial_close)]
     | | destruct (String.eqb reason "take_profit_2");
       [| destruct (fleb (lit 10 1) partial_close)]];
    cbn [remaining_quantity set_stop_loss set_status set_tp1_hit set_tp2_hit
         set_remaining_quantity set_realized_pnl];
    match goal with
    | |- context [if ?c then _ else _] => destruct c
    end;
    eexists; eexists; (split; [reflexivity|]); cbn; auto.
Qed.
End Structural.

(** ** The ledger under sequences of operations *)

Section Ledger.
Context {R : Type} `{PyFloat R}.

Lemma get_current_drawdown_capital (s : RiskManager R) :
  current_capital (snd (get_current_drawdown s)) = current_capital s.
Proof.
  unfold get_current_drawdown.
  destruct (feqb (max_historical_capital s) (lit 0 0)); reflexivity.
Qed.

Lemma can_open_position_capital (s : RiskManager R) (signal : TradingSignal R) :
  current_capital (snd (can_open_position s signal)) = current_capital s.
Proof.
  unfold can_open_position.
  destruct (_ >=? _)%Z; [reflexivity|].
  destruct (PyDict.contains _ _); [reflexivity|].
  destruct (fleb _ (get_portfolio_risk s)); [reflexivity|].
  pose proof (get_current_drawdown_capital s) as Hd.
  destruct (get_current_drawdown s) as [drawdown s1]. simpl in Hd.
  destruct (fleb _ drawdown); [exact Hd|].
  destruct (fltb _ _); exact Hd.
Qed.

Lemma update_position_capital (s : RiskManager R) (symbol : string)
    (price : R) :
  current_capital (snd (update_position s symbol price)) = current_capital s.
Proof.
  unfold update_position.
  destruct (PyDict.get (positions s) symbol) as [p|]; [|reflexivity].
  destruct (_should_stop_loss _); [reflexivity|].
  destruct (negb _ && _should_take_profit_1 _); [reflexivity|].
  destruct (tp1_hit _ && negb _ && _should_take_profit_2 _); reflexivity.
Qed.

Lemma get_portfolio_summary_capital (s : RiskManager R) :
  current_capital (snd (get_portfolio_summary s)) = current_capital s.
Proof.
  unfold get_portfolio_summary.
  pose proof (get_current_drawdown_capital s) as Hd.
  destruct (get_current_drawdown s) as [drawdown s1]. exact Hd.
Qed.

(** One operation: the capital moves by the realized delta, if any. *)
Lemma apply_op_capital (s : RiskManager R) (op : RiskOp R) :
  current_capital (apply_op s op) =
    match realized_delta s op with
    | Some d => fadd (current_capital s) d
    | None => current_capital s
    end.
Proof.
  destruct op as [| | | | |sym why part| | | |]; simpl;
    auto using can_open_position_capital, update_position_capital,
               get_current_drawdown_capital, get_portfolio_summary_capital.
  destruct (PyDict.get (positions s) sym) as [p|] eqn:Hget.
  - destruct (close_position_present s sym why part Hget)
      as (p' & s' & -> & Hcap & _). exact Hcap.
  - now rewrite close_position_absent.
Qed.

Lemma run_ops_capital (ops : list (RiskOp R)) :
  forall s : RiskManager R,
    current_capital (run_ops s ops) =
      fold_left fadd (realized_deltas s ops) (current_capital s).
Proof.
  induction ops as [|op ops IH]; intros s; [reflexivity|].
  unfold run_ops in *. simpl. rewrite IH, apply_op_capital.
  destruct (realized_delta s op); reflexivity.
Qed.
(** The trade counters under one operation: [total_trades] counts the calls
    of [open_position], [winning_trades] the closes that realize a profit. *)
Lemma get_current_drawdown_counters (s : RiskManager R) :
  total_trades (snd (get_current_drawdown s)) = total_trades s /\
  winning_trades (snd (get_current_drawdown s)) = winning_trades s.
Proof.
  unfold get_current_drawdown.
  destruct (feqb (max_historical_capital s) (lit 0 0)); split; reflexivity.
Qed.

Lemma can_open_position_counters (s : RiskManager R)
    (signal : TradingSignal R) :
  total_trades (snd (can_open_position s signal)) = total_trades s /\
  winning_trades (snd (can_open_position s signal)) = winning_trades s.
Proof.
  unfold can_open_position.
  destruct (_ >=? _)%Z; [split; reflexivity|].
  destruct (PyDict.contains _ _); [split; reflexivity|].
  destruct (fleb _ (get_portfolio_risk s)); [split; reflexivity|].
  pose proof (get_current_drawdown_counters s) as Hd.
  destruct (get_current_drawdown s) as [drawdown s1]. simpl in Hd.
  destruct (fleb _ drawdown); [exact Hd|].
  destruct (fltb _ _); exact Hd.
Qed.

Lemma update_position_counters (s : RiskManager R) (symbol : string)
    (price : R) :
  total_trades (snd (update_position s symbol price)) = total_trades s /\
  winning_trades (snd (update_position s symbol price)) = winning_trades s.
Proof.
  unfold update_position.
  destruct (PyDict.get (positions s) symbol) as [p|]; [|split; reflexivity].
  destruct (_should_stop_loss _); [split; reflexivity|].
  destruct (negb _ && _should_take_profit_1 _); [split; reflexivity|].
  destruct (tp1_hit _ && negb _ && _should_take_profit_2 _);
    split; reflexivity.
Qed.

Lemma get_portfolio_summary_counters (s : RiskManager R) :
  total_trades (snd (get_portfolio_summary s)) = total_trades s /\
  winning_trades (snd (get_portfolio_summary s)) = winning_trades s.
Proof.
  unfold get_portfolio_summary.
  pose proof (get_current_drawdown_counters s) as Hd.
  destruct (get_current_drawdown s) as [drawdown s1]. exact Hd.
Qed.

Lemma apply_op_counters (s : RiskManager R) (op : RiskOp R) :
  total_trades (apply_op s op) =
    match op with
    | OpOpenPosition _ _ => (total_trades s + 1)%Z
    | _ => total_trades s
    end /\
  winning_trades (apply_op s op) =
    match realized_delta s op with
    | Some d =>
        if fltb (lit 0 0) d then (winning_trades s + 1)%Z
        else winning_trades s
    | None => winning_trades s
    end.
Proof.
  destruct op as [| | | | |sym why part| | | |]; simpl;
    auto using can_open_position_counters, update_position_counters,
               get_current_drawdown_counters, get_portfolio_summary_counters.
  destruct (PyDict.get (positions s) sym) as [p|] eqn:Hget.
  - destruct (close_position_present s sym why part Hget)
      as (p' & s' & -> & _ & _ & _ & Htot & Hwin). auto.
  - rewrite close_position_absent by exact Hget. auto.
Qed.
End Ledger.

(** ** Exit checks of [update_position] *)

(** C2.  On a price update of a held symbol the stop-loss is checked first,
    the first target only when it has not been hit, the second target only
    when the first has been hit and the second has not; in particular a price
    that meets the stop and a target at once yields ["stop_loss"]. *)
Theorem update_position_exit_order
    (R : Type) (F : PyFloat R) (s : RiskManager R) (symbol : string)
    (price : R) (position : Position R) :
  PyDict.get (positions s) symbol = Some position ->
  let p := update_price position price in
  let r := fst (update_position s symbol price) in
  (r = Some "stop_loss"%string <-> _should_stop_loss p = true) /\
  (_should_stop_loss p = true ->
   _should_take_profit_1 p = true \/ _should_take_profit_2 p = true ->
   r = Some "stop_loss"%string) /\
  (r = Some "take_profit_1"%string <->
   _should_stop_loss p = false /\ tp1_hit position = false /\
   _should_take_profit_1 p = true) /\
  (r = Some "take_profit_2"%string <->
   _should_stop_loss p = false /\ tp1_hit position = true /\
   tp2_hit position = false /\ _should_take_profit_2 p = true) /\
  (r = None <->
   _should_stop_loss p = false /\
   (tp1_hit position = false -> _should_take_profit_1 p = false) /\
   (tp1_hit position = true -> tp2_hit position = false ->
    _should_take_profit_2 p = false)).
Proof.
  intros Hget p r. subst r. unfold update_position. rewrite Hget.
  fold p.
  assert (Ht1 : tp1_hit p = tp1_hit position) by reflexivity.
  assert (Ht2 : tp2_hit p = tp2_hit position) by reflexivity.
  rewrite Ht1, Ht2.
  destruct (_should_stop_loss p), (tp1_hit position), (tp2_hit position),
    (_should_take_profit_1 p), (_should_take_profit_2 p); simpl;
    repeat split; intros; try discriminate; try reflexivity;
    repeat match goal with
           | H : _ /\ _ |- _ => destruct H
           | H : ?a = false -> _ |- _ =>
               specialize (H eq_refl)
           | H : ?a = true -> _ |- _ =>
               specialize (H eq_refl)
           end; try discriminate; auto.
Qed.

(** The position with crossed levels: the price 100 meets its stop (105) and
    its first target (95) at once, and the stop wins. *)
Lemma update_position_exit_order_witness :
  PyDict.get (positions (Scenario.rm_crossed Q)) "NOICEUSDT"
    = Some (Scenario.crossed_position Q) /\
  fst (update_position (Scenario.rm_crossed Q) "NOICEUSDT" (lit 1000 1))
    = Some "stop_loss"%string.
Proof.
  split; [reflexivity|].
  apply (update_position_exit_order Q_PyFloat (Scenario.rm_crossed Q)
           "NOICEUSDT" (lit 1000 1) (position := Scenario.crossed_position Q)
           eq_refl).
  - reflexivity.
  - left. reflexivity.
Defined.

(** ** Calls on a symbol that is not held *)

(** C9.  [close_position] and [update_position] on a symbol without an open
    position return [None] and leave the whole risk manager as it was. *)
Theorem absent_symbol_is_noop
    (R : Type) (F : PyFloat R) (s : RiskManager R) (symbol reason : string)
    (partial_close current_price : R) :
  PyDict.contains (positions s) symbol = false ->
  close_position s symbol reason partial_close = (None, s) /\
  update_position s symbol current_price = (None, s).
Proof.
  intros Hc. apply PyDictFacts.contains_false_get in Hc.
  split; [apply close_position_absent | apply update_position_absent];
    exact Hc.
Qed.

(** The risk manager that holds [NOICEUSDT] is asked about [ETHUSDT]. *)
Lemma absent_symbol_is_noop_witness :
  PyDict.contains (positions (Scenario.rm_long Q)) "ETHUSDT" = false /\
  close_position (Scenario.rm_long Q) "ETHUSDT" "manual_close" (lit 10 1)
    = (None, Scenario.rm_long Q) /\
  update_position (Scenario.rm_long Q) "ETHUSDT" (lit 25000 1)
    = (None, Scenario.rm_long Q).
Proof.
  split; [reflexivity|].
  apply (absent_symbol_is_noop Q_PyFloat (Scenario.rm_long Q) "ETHUSDT"
           "manual_close" (lit 10 1) (lit 25000 1)).
  reflexivity.
Defined.

(** ** The capital invariant *)

(** C8.  Along any sequence of risk-manager operations the capital is the
    initial capital plus, in order, the P&L realized by the closes of held
    symbols; a price update never changes it; and the amount a close adds to
    the capital is the amount it adds to the position's realized P&L. *)
Theorem capital_moves_by_realized_pnl_only
    (R : Type) (F : PyFloat R) (s : RiskManager R) :
  (forall ops : list (RiskOp R),
     current_capital (run_ops s ops) =
       fold_left fadd (realized_deltas s ops) (current_capital s)) /\
  (forall (symbol : string) (price : R),
     current_capital (snd (update_position s symbol price))
       = current_capital s) /\
  (forall (symbol reason : string) (partial_close : R),
     match PyDict.get (positions s) symbol,
           close_position s symbol reason partial_close with
     | Some position, (Some position', s') =>
         current_capital s' =
           fadd (current_capital s) (close_pnl position partial_close) /\
         realized_pnl position' =
           fadd (realized_pnl position) (close_pnl position partial_close)
     | None, (None, s') => s' = s
     | _, _ => False
     end).
Proof.
  split; [|split].
  - intros ops. apply run_ops_capital.
  - intros. apply update_position_capital.
  - intros symbol reason partial_close.
    destruct (PyDict.get (positions s) symbol) as [p|] eqn:Hget.
    + destruct (close_position_present s symbol reason partial_close Hget)
        as (p' & s' & -> & Hcap & Hpnl & _). auto.
    + now rewrite close_position_absent.
Qed.

(** ** The two-tick scenario: first target, then the breakeven stop *)

(** C1, as the code runs it.  The tick at 1.10 fires the first target: 5 of
    the 10 units are closed, 0.5 is realized into the capital, the stop moves
    to the entry price 1.0 and the position is PARTIAL.  The tick at 0.99
    triggers the moved stop and closes the remaining 5 units at the current
    price 0.99, which realizes -0.05 on the second tranche. *)
Theorem tp1_then_breakeven_stop :
  let rm1 := risk_manager (Scenario.after_tp1 Q) in
  let rm2 := risk_manager (Scenario.after_stop Q) in
  calls (Scenario.after_tp1 Q) =
    [CallUpdatePosition "NOICEUSDT";
     CallClosePosition "NOICEUSDT" "take_profit_1"] /\
  (exists p1,
     positions rm1 = [("NOICEUSDT"%string, p1)] /\
     remaining_quantity p1 = lit 5 0 /\ realized_pnl p1 = lit 5 1 /\
     stop_loss p1 = lit 10 1 /\ status p1 = PARTIAL /\ tp1_hit p1 = true) /\
  current_capital rm1 = fadd (current_capital (Scenario.rm_long Q)) (lit 5 1) /\
  calls (Scenario.after_stop Q) =
    calls (Scenario.after_tp1 Q) ++
    [CallUpdatePosition "NOICEUSDT";
     CallClosePosition "NOICEUSDT" "stop_loss"] /\
  positions rm2 = [] /\
  (exists p2,
     position_history rm2 = [p2] /\
     status p2 = CLOSED /\ remaining_quantity p2 = lit 0 1 /\
     current_price p2 = lit 99 2 /\
     realized_pnl p2 = fadd (lit 5 1) (lit (-5) 2)) /\
  current_capital rm2 = fadd (current_capital rm1) (lit (-5) 2).
Proof.
  vm_compute. repeat split.
  - eexists. repeat split.
  - eexists. repeat split.
Qed.

(** C1 as stated fails: the second tranche is closed at the current price
    0.99 and not at the stop price 1.0, and its realized P&L is not zero. *)
Lemma tp1_then_breakeven_stop_counterexample :
  let rm1 := risk_manager (Scenario.after_tp1 Q) in
  let rm2 := risk_manager (Scenario.after_stop Q) in
  map (@current_price Q) (position_history rm2) = [lit 99 2] /\
  map (@stop_loss Q) (position_history rm2) = [lit 10 1] /\
  current_capital rm2 <> fadd (current_capital rm1) (lit 0 1) /\
  fsub (current_capital rm2) (current_capital rm1) = lit (-5) 2.
Proof.
  vm_compute. repeat split. discriminate.
Qed.

(** ** Trade counters *)

(** C10.  [open_position] adds one to [total_trades] and leaves
    [winning_trades]; a close of a held symbol leaves [total_trades] and adds
    one to [winning_trades] exactly when the P&L it realizes is positive,
    whatever the fraction closed; no other operation moves either counter.
    One position closed at a profit in two tranches therefore counts for two
    wins in one trade, and the reported win rate is 200. *)
Theorem winning_trades_count_tranches
    (R : Type) (F : PyFloat R) (s : RiskManager R)
    (signal : TradingSignal R) (quantity : R)
    (symbol reason : string) (partial_close : R) (position : Position R) :
  PyDict.get (positions s) symbol = Some position ->
  let opened := snd (open_position s signal quantity) in
  let closed := snd (close_position s symbol reason partial_close) in
  let final := risk_manager (Scenario.after_tp2 Q) in
  (total_trades opened = total_trades s + 1 /\
   winning_trades opened = winning_trades s)%Z /\
  (total_trades closed = total_trades s /\
   winning_trades closed =
     if fltb (lit 0 0) (close_pnl position partial_close)
     then winning_trades s + 1 else winning_trades s)%Z /\
  (forall op : RiskOp R,
     total_trades (apply_op s op) =
       match op with
       | OpOpenPosition _ _ => total_trades s + 1
       | _ => total_trades s
       end /\
     winning_trades (apply_op s op) =
       match realized_delta s op with
       | Some d =>
           if fltb (lit 0 0) d then winning_trades s + 1
           else winning_trades s
       | None => winning_trades s
       end)%Z /\
  (total_trades (Scenario.rm0 Q) = 0 /\ winning_trades (Scenario.rm0 Q) = 0 /\
   total_trades final = 1 /\ winning_trades final = 2)%Z /\
  sum_win_rate (fst (get_portfolio_summary final)) = lit 200 0 /\
  fltb (lit 100 0) (sum_win_rate (fst (get_portfolio_summary final))) = true.
Proof.
  intros Hget opened closed final. split; [split; reflexivity|].
  split.
  - subst closed.
    destruct (close_position_present s symbol reason partial_close Hget)
      as (p' & s' & -> & _ & _ & _ & Htot & Hwin). auto.
  - split; [intros op; apply apply_op_counters|].
    subst final. vm_compute. repeat split.
Qed.

(** The first-target close of the scenario: half of the position, at a
    profit, counted as a win. *)
Lemma winning_trades_count_tranches_witness :
  let s := snd (update_position (Scenario.rm_long Q) "NOICEUSDT" (lit 110 2)) in
  PyDict.get (positions s) "NOICEUSDT"
    = Some (update_price (Scenario.long_position Q) (lit 110 2)) /\
  winning_trades
    (snd (close_position s "NOICEUSDT" "take_profit_1" (lit 5 1))) = 1%Z.
Proof.
  cbv zeta.
  assert (Hget :
    PyDict.get
      (positions
         (snd (update_position (Scenario.rm_long Q) "NOICEUSDT" (lit 110 2))))
      "NOICEUSDT"
    = Some (update_price (Scenario.long_position Q) (lit 110 2)))
    by (vm_compute; reflexivity).
  split; [exact Hget|].
  apply (winning_trades_count_tranches Q_PyFloat
           (snd (update_position (Scenario.rm_long Q) "NOICEUSDT" (lit 110 2)))
           (Scenario.noice_buy Q) (lit 10 0) "NOICEUSDT" "take_profit_1"
           (lit 5 1) Hget).
Defined.

(** ** The trading-enabled flag *)

Section EngineCalls.
Context {R : Type} `{PyFloat R} {S : Type}.
Variable strategy_update :
  S -> OHLCVData R -> outcome (option (TradingSignal R)) * S.


End EngineCalls.




(** ** Exact arithmetic: what the operations on [Q] compute *)

Module ExactFacts.
Local Open Scope Q_scope.












Lemma lit_0_1 : lit 0 1 = 0.        Proof. reflexivity. Qed.
Lemma lit_10_1 : lit 10 1 = 1.      Proof. reflexivity. Qed.











End ExactFacts.

(** ** Position sizing *)

Section Sizing.
Local Open Scope Q_scope.
Import ExactFacts.

Variable s : RiskManager Q.
Variable signal : TradingSignal Q.

Lemma Qabs_zero (x : Q) : Qabs x == 0 -> x == 0.
Proof.
  apply Qabs_case; intros Hs Ha; lra.
Qed.


Lemma price_diff_pos :
  ~ price signal == sig_stop_loss signal ->
  0 < Qabs (price signal - sig_stop_loss signal).
Proof.
  intros Hne.
  destruct (Qlt_le_dec 0 (Qabs (price signal - sig_stop_loss signal)))
    as [Hp|Hn]; [exact Hp|].
  exfalso. apply Hne.
  pose proof (Qabs_nonneg (price signal - sig_stop_loss signal)) as H0.
  assert (Hz : Qabs (price signal - sig_stop_loss signal) == 0) by lra.
  apply Qabs_zero in Hz. lra.
Qed.




End Sizing.




(** ** Admitted opens *)

Section Admission.
Context {R : Type} `{PyFloat R}.




Section Engine.
Context {S : Type}.

End Engine.
End Admission.

(** ** Admitted opens in exact arithmetic *)

Section AdmittedOpen.
Local Open Scope Q_scope.
Import ExactFacts.



End AdmittedOpen.







(** ** The first take-profit *)

Section TakeProfit1.
Local Open Scope Q_scope.
Import ExactFacts.


End TakeProfit1.




(** ** The same runs on doubles *)

(** The runs that decide the properties above, evaluated on IEEE binary64
    with the interpreter's own rounding: the outcomes do not depend on the
    exact arithmetic. *)

(** First target, then the moved stop: the rest is closed at 0.99 and the
    capital goes down. *)
Lemma breakeven_stop_on_doubles :
  let rm1 := risk_manager (Scenario.after_tp1 float) in
  let rm2 := risk_manager (Scenario.after_stop float) in
  map (@status float) (PyDict.values (positions rm1)) = [PARTIAL] /\
  map (@stop_loss float) (PyDict.values (positions rm1)) = [lit 10 1] /\
  map (@remaining_quantity float) (PyDict.values (positions rm1))
    = [lit 5 0] /\
  positions rm2 = [] /\
  map (@current_price float) (position_history rm2) = [lit 99 2] /\
  fltb (current_capital rm2) (current_capital rm1) = true.
Proof.
  vm_compute. repeat split.
Qed.

(** Crossed levels: the stop wins over the first target. *)
Lemma crossed_levels_on_doubles :
  fst (update_position (Scenario.rm_crossed float) "NOICEUSDT" (lit 1000 1))
    = Some "stop_loss"%string.
Proof.
  vm_compute. reflexivity.
Qed.

(** A candle with trading disabled changes nothing. *)
Lemma disabled_candle_on_doubles :
  Scenario.disabled_after_candle float = Scenario.engine_disabled float /\
  signals_generated (Scenario.enabled_after_candle float) = 1%Z.
Proof.
  vm_compute. repeat split.
Qed.

(** The second admitted open takes the portfolio risk above the ceiling. *)
Lemma portfolio_risk_on_doubles :
  let rm2 := risk_manager (Scenario.after_second_open float) in
  trades_executed (Scenario.after_second_open float) = 2%Z /\
  fltb (max_portfolio_risk rm2) (get_portfolio_risk rm2) = true.
Proof.
  vm_compute. repeat split.
Qed.

(** The rounded cash cap costs more than 0.95 of the capital. *)
Lemma size_bound_on_doubles :
  trades_executed (Scenario.after_tight_open float) = 1%Z /\
  map (@quantity float)
      (PyDict.values
         (positions (risk_manager (Scenario.after_tight_open float))))
    = [lit 316666666667 8] /\
  fltb (fmul (lit 95 2) (current_capital (Scenario.rm0 float)))
       (fmul (lit 316666666667 8) (price (Scenario.tight_buy float))) = true.
Proof.
  vm_compute. repeat split.
Qed.

(** The sizing example gives 95, and a negative capital a negative size. *)
Lemma position_size_on_doubles :
  calculate_position_size (Scenario.rm0 float) (Scenario.sizing_buy float)
    = Returned (lit 95 0) /\
  current_capital (risk_manager (Scenario.after_gap float)) = lit (-9000) 0 /\
  calculate_position_size (risk_manager (Scenario.after_gap float))
      (Scenario.noice_buy float) = Returned (lit (-8550) 0) /\
  fltb (lit (-8550) 0 : float) (lit 0 0) = true.
Proof.
  vm_compute. repeat split.
Qed.

(** The first take-profit of the small position closes it. *)
Lemma small_take_profit_on_doubles :
  positions (risk_manager (Scenario.small_after_tp1 float)) = [] /\
  map (@status float)
      (position_history (risk_manager (Scenario.small_after_tp1 float)))
    = [CLOSED] /\
  map (@remaining_quantity float)
      (position_history (risk_manager (Scenario.small_after_tp1 float)))
    = [lit 5 4].
Proof.
  vm_compute. repeat split.
Qed.

(** Two profitable tranches of one position: two wins, one trade. *)
Lemma two_tranches_on_doubles :
  let final := risk_manager (Scenario.after_tp2 float) in
  total_trades final = 1%Z /\ winning_trades final = 2%Z /\
  sum_win_rate (fst (get_portfolio_summary final)) = lit 200 0.
Proof.
  vm_compute. repeat split.
Qed.
